(** * openshift-ai/config.py: endpoint constants and environment export

    The module computes nine URL strings from the namespace literal and
    mirrors eight of them into [os.environ] when it is imported.  The
    process is modelled as the environment mapping together with the text
    written to standard output and the encoder of that stream; statements
    of the module are computations in a small state-and-exception monad. *)

From Stdlib Require Import Ascii String.
From stdpp Require Import base option list gmap strings.

Local Open Scope string_scope.

(** ** Strings *)

Module Str.

Fixpoint all (p : ascii -> bool) (s : string) : bool :=
  match s with
  | EmptyString => true
  | String c r => p c && all p r
  end.

Fixpoint any (p : ascii -> bool) (s : string) : bool :=
  match s with
  | EmptyString => false
  | String c r => p c || any p r
  end.

Definition is_empty (s : string) : bool :=
  match s with EmptyString => true | String _ _ => false end.

(** Longest prefix whose characters satisfy [p], and what follows it. *)
Fixpoint span (p : ascii -> bool) (s : string) : string * string :=
  match s with
  | EmptyString => (EmptyString, EmptyString)
  | String c r =>
      if p c then let '(a, b) := span p r in (String c a, b)
      else (EmptyString, s)
  end.

(** [strip pre s] removes the prefix [pre] from [s] when it is there. *)
Fixpoint strip (pre s : string) : option string :=
  match pre, s with
  | EmptyString, _ => Some s
  | String a pre', String b s' =>
      if Ascii.eqb a b then strip pre' s' else None
  | String _ _, EmptyString => None
  end.

(** [occurs x s]: [x] is a contiguous substring of [s] (Python's [x in s]). *)
Fixpoint occurs (x s : string) : bool :=
  match strip x s with
  | Some _ => true
  | None => match s with
            | EmptyString => false
            | String _ r => occurs x r
            end
  end.

(** [stops p s]: [s] does not start with a character satisfying [p]. *)
Definition stops (p : ascii -> bool) (s : string) : bool :=
  match s with
  | EmptyString => true
  | String c _ => negb (p c)
  end.

End Str.

(** ** Module-level constants (config.py, lines 9-26) *)

Definition NAMESPACE : string := "hacohen-flywheel".

Definition API_BASE_URL : string :=
  "http://df-api-service." +:+ NAMESPACE +:+ ".svc.cluster.local:8000".
Definition ELASTICSEARCH_URL : string :=
  "http://elasticsearch-master." +:+ NAMESPACE +:+ ".svc.cluster.local:9200".
Definition MONGODB_URL : string :=
  "mongodb://flywheel-infra-mongodb." +:+ NAMESPACE +:+ ".svc.cluster.local:27017".
Definition REDIS_URL : string :=
  "redis://flywheel-infra-redis-master." +:+ NAMESPACE +:+ ".svc.cluster.local:6379/0".
Definition MLFLOW_TRACKING_URI : string :=
  "http://df-mlflow-service." +:+ NAMESPACE +:+ ".svc.cluster.local:5000".

Definition NEMO_BASE_URL : string :=
  "http://nemo-gateway." +:+ NAMESPACE +:+ ".svc.cluster.local".
Definition NIM_BASE_URL : string :=
  "http://nemo-gateway." +:+ NAMESPACE +:+ ".svc.cluster.local".
Definition DATASTORE_BASE_URL : string :=
  "http://nemodatastore-sample." +:+ NAMESPACE +:+ ".svc.cluster.local:8000".

Definition NIM_EXTERNAL_URL : string :=
  "http://nemo-gateway-hacohen-flywheel.apps.ai-dev05.kni.syseng.devcluster.openshift.com".

(** ** The process: [os.environ] and the text stream [sys.stdout]

    [stdout] holds the lines written so far.  [stdout_encoder] is [None]
    when [sys.stdout] is [None]; otherwise it tells which texts the
    stream's encoder accepts: every text for a UTF-8 stream or a lenient
    error handler, only ASCII text for a strict ASCII stream. *)

Record process : Type := Process {
  environ : gmap string string;
  stdout : list string;
  stdout_encoder : option (string -> bool)
}.

Module Py.

Inductive exn : Type :=
| ValueError (msg : string)
| OSError (errno : nat) (msg : string)
| UnicodeEncodeError (text : string).

Inductive outcome (A : Type) : Type :=
| Normal (a : A) (p : process)
| Raised (e : exn) (p : process).
Arguments Normal {A} a p.
Arguments Raised {A} e p.

Definition py (A : Type) : Type := process -> outcome A.

Definition ret {A} (a : A) : py A := fun p => Normal a p.

Definition bind {A B} (m : py A) (k : A -> py B) : py B :=
  fun p => match m p with
           | Normal a p' => k a p'
           | Raised e p' => Raised e p'
           end.

Definition raise {A} (e : exn) : py A := fun p => Raised e p.

(** The process state in which a computation ended, by returning or by
    raising. *)
Definition final {A} (o : outcome A) : process :=
  match o with
  | Normal _ p => p
  | Raised _ p => p
  end.

Definition NUL : ascii := Ascii.ascii_of_nat 0.

Definition has_nul (s : string) : bool := Str.any (Ascii.eqb NUL) s.

Definition has_equals (s : string) : bool := Str.any (Ascii.eqb "=") s.

(** A name the environment accepts: not empty and without ['=']. *)
Definition legal_name (key : string) : bool :=
  negb (Str.is_empty key) && negb (has_equals key).

(** [os.environ[key] = value]: both strings are encoded (an embedded NUL
    raises [ValueError]), [putenv] rejects a name with ['='] by
    [ValueError] and [setenv] an empty name by [OSError] (EINVAL), and then
    the mapping is updated. *)
Definition environ_setitem (key value : string) : py unit :=
  fun p =>
    if has_nul key || has_nul value then
      raise (ValueError "embedded null byte") p
    else if has_equals key then
      raise (ValueError "illegal environment variable name") p
    else if Str.is_empty key then
      raise (OSError 22 "Invalid argument") p
    else
      Normal tt {| environ := <[key := value]> (environ p);
                   stdout := stdout p;
                   stdout_encoder := stdout_encoder p |}.

(** [print(s)]: nothing happens when [sys.stdout] is [None]; otherwise the
    stream encodes the text, which raises [UnicodeEncodeError] before
    anything of it is written when the encoder does not accept it, and
    else the line is written.  Faults of the device behind the stream are
    not modelled. *)
Definition print (s : string) : py unit :=
  fun p =>
    match stdout_encoder p with
    | None => Normal tt p
    | Some enc =>
        if enc s then
          Normal tt {| environ := environ p;
                       stdout := stdout p ++ [s];
                       stdout_encoder := stdout_encoder p |}
        else raise (UnicodeEncodeError s) p
    end.

(** Two encoders: UTF-8 takes every text, strict ASCII only bytes below
    128. *)
Definition utf8 : string -> bool := fun _ => true.

Definition ascii_strict : string -> bool :=
  Str.all (fun c => (nat_of_ascii c <? 128)%nat).

(** The lines of [ls] that successive prints write before one is refused,
    and the line that is refused. *)
Fixpoint written (enc : string -> bool) (ls : list string) : list string :=
  match ls with
  | [] => []
  | l :: r => if enc l then l :: written enc r else []
  end.

Fixpoint refused (enc : string -> bool) (ls : list string) : option string :=
  match ls with
  | [] => None
  | l :: r => if enc l then refused enc r else Some l
  end.

(** [print(l); print(l1); ...] for a line and the lines after it. *)
Fixpoint print_seq (l : string) (ls : list string) : py unit :=
  match ls with
  | [] => print l
  | l' :: r => bind (print l) (fun _ => print_seq l' r)
  end.

End Py.

#[global] Instance py_ret : MRet Py.py := @Py.ret.
#[global] Instance py_bind : MBind Py.py := fun A B k m => Py.bind m k.

(** U+2713 CHECK MARK, as the three bytes of its UTF-8 encoding. *)
Definition CHECK_MARK : string :=
  String (Ascii.ascii_of_nat 226)
    (String (Ascii.ascii_of_nat 156)
       (String (Ascii.ascii_of_nat 147) EmptyString)).

(** ** configure_environment (config.py, lines 29-45) *)

Definition configure_environment : Py.py unit :=
  Py.environ_setitem "API_BASE_URL" API_BASE_URL ;;
  Py.environ_setitem "ELASTICSEARCH_URL" ELASTICSEARCH_URL ;;
  Py.environ_setitem "MONGODB_URL" MONGODB_URL ;;
  Py.environ_setitem "REDIS_URL" REDIS_URL ;;
  Py.environ_setitem "MLFLOW_TRACKING_URI" MLFLOW_TRACKING_URI ;;
  Py.environ_setitem "NEMO_BASE_URL" NEMO_BASE_URL ;;
  Py.environ_setitem "NIM_BASE_URL" NIM_BASE_URL ;;
  Py.environ_setitem "DATASTORE_BASE_URL" DATASTORE_BASE_URL ;;
  Py.print (CHECK_MARK +:+ " OpenShift AI environment configured") ;;
  Py.print ("  Namespace: " +:+ NAMESPACE) ;;
  Py.print ("  API URL: " +:+ API_BASE_URL) ;;
  Py.print ("  Elasticsearch: " +:+ ELASTICSEARCH_URL) ;;
  Py.print ("  MLflow: " +:+ MLFLOW_TRACKING_URI) ;;
  Py.print ("  NeMo Gateway: " +:+ NEMO_BASE_URL).

(** ** Module body (config.py, lines 47-48): the constants above are bound,
    [configure_environment] is defined, and then it is called. *)

Definition import_config : Py.py unit :=
  configure_environment.

(** The names of the interface list, each with the constant it mirrors. *)
Definition EXPORTED : list (string * string) :=
  [ ("API_BASE_URL", API_BASE_URL);
    ("ELASTICSEARCH_URL", ELASTICSEARCH_URL);
    ("MONGODB_URL", MONGODB_URL);
    ("REDIS_URL", REDIS_URL);
    ("MLFLOW_TRACKING_URI", MLFLOW_TRACKING_URI);
    ("NEMO_BASE_URL", NEMO_BASE_URL);
    ("NIM_BASE_URL", NIM_BASE_URL);
    ("DATASTORE_BASE_URL", DATASTORE_BASE_URL) ].

(** ** The documented URL shape

    [<scheme>://<service-host>.<namespace>.svc.cluster.local:<port>[/<path>]]
    read as a grammar: a scheme (a letter, then letters, digits, [+], [-]
    or [.]), a service host that is one DNS label, the namespace, the
    cluster suffix, a decimal port and an optional path. *)

Module Url.

Definition between (lo hi : nat) (c : ascii) : bool :=
  (lo <=? nat_of_ascii c)%nat && (nat_of_ascii c <=? hi)%nat.

Definition is_digit (c : ascii) : bool := between 48 57 c.
Definition is_alpha (c : ascii) : bool := between 65 90 c || between 97 122 c.

Definition is_scheme_char (c : ascii) : bool :=
  is_alpha c || is_digit c
  || Ascii.eqb c "+" || Ascii.eqb c "-" || Ascii.eqb c ".".

Definition is_label_char (c : ascii) : bool :=
  is_alpha c || is_digit c || Ascii.eqb c "-".

Definition starts_alpha (s : string) : bool :=
  match s with
  | EmptyString => false
  | String c _ => is_alpha c
  end.

Record parts : Type := Parts {
  scheme : string;
  service_host : string;
  port : option string;
  path : option string
}.

Definition CLUSTER_SUFFIX : string := ".svc.cluster.local".

Definition port_text (o : option string) : string :=
  match o with
  | Some d => ":" +:+ d
  | None => ""
  end.

Definition path_text (o : option string) : string :=
  match o with
  | Some q => "/" +:+ q
  | None => ""
  end.

Definition render (ns : string) (u : parts) : string :=
  scheme u +:+ "://" +:+ service_host u +:+ "." +:+ ns +:+ CLUSTER_SUFFIX
    +:+ port_text (port u) +:+ path_text (path u).

Definition port_ok (o : option string) : bool :=
  match o with
  | Some d => negb (Str.is_empty d) && Str.all is_digit d
  | None => true
  end.

Definition well_formed (u : parts) : bool :=
  starts_alpha (scheme u) && Str.all is_scheme_char (scheme u)
  && negb (Str.is_empty (service_host u))
  && Str.all is_label_char (service_host u)
  && port_ok (port u).

Definition has_port (u : parts) : bool :=
  match port u with Some _ => true | None => false end.

(** The shape as documented: the port is there. *)
Definition matches_template (ns url : string) : Prop :=
  exists u, well_formed u = true /\ has_port u = true /\ render ns u = url.

(** The same shape with the port left optional. *)
Definition matches_template_optional_port (ns url : string) : Prop :=
  exists u, well_formed u = true /\ render ns u = url.

Definition parse_port (s : string) : option (option string * string) :=
  match s with
  | String ":" r =>
      let '(d, r') := Str.span is_digit r in
      if Str.is_empty d then None else Some (Some d, r')
  | _ => Some (None, s)
  end.

Definition parse_path (s : string) : option (option string) :=
  match s with
  | EmptyString => Some None
  | String "/" q => Some (Some q)
  | String _ _ => None
  end.

(** A recogniser for the grammar: it reads a URL left to right and
    returns its four parts. *)
Definition parse (ns url : string) : option parts :=
  let '(sch, r1) := Str.span is_scheme_char url in
  r2 ← Str.strip "://" r1;
  let '(host, r3) := Str.span is_label_char r2 in
  r4 ← Str.strip "." r3;
  r5 ← Str.strip ns r4;
  r6 ← Str.strip CLUSTER_SUFFIX r5;
  '(prt, r7) ← parse_port r6;
  pth ← parse_path r7;
  if starts_alpha sch && negb (Str.is_empty host) then
    Some {| scheme := sch; service_host := host; port := prt; path := pth |}
  else None.

(** The host of a URL: what stands between [://] and the first [:] or
    [/] after it. *)
Definition hostname (url : string) : option string :=
  let '(_, r1) := Str.span is_scheme_char url in
  r2 ← Str.strip "://" r1;
  Some (fst (Str.span (fun c => negb (Ascii.eqb c ":" || Ascii.eqb c "/")) r2)).

End Url.

(** ** Tables and derived values used by the statements *)

(** The environment after the eight assignments, in program order. *)
Definition published (e : gmap string string) : gmap string string :=
  <["DATASTORE_BASE_URL" := DATASTORE_BASE_URL]>
  (<["NIM_BASE_URL" := NIM_BASE_URL]>
  (<["NEMO_BASE_URL" := NEMO_BASE_URL]>
  (<["MLFLOW_TRACKING_URI" := MLFLOW_TRACKING_URI]>
  (<["REDIS_URL" := REDIS_URL]>
  (<["MONGODB_URL" := MONGODB_URL]>
  (<["ELASTICSEARCH_URL" := ELASTICSEARCH_URL]>
  (<["API_BASE_URL" := API_BASE_URL]> e))))))).

(** The six lines of confirmation output, as evaluated strings. *)
Definition BANNER : list string :=
  [ CHECK_MARK +:+ " OpenShift AI environment configured";
    "  Namespace: hacohen-flywheel";
    "  API URL: http://df-api-service.hacohen-flywheel.svc.cluster.local:8000";
    "  Elasticsearch: http://elasticsearch-master.hacohen-flywheel.svc.cluster.local:9200";
    "  MLflow: http://df-mlflow-service.hacohen-flywheel.svc.cluster.local:5000";
    "  NeMo Gateway: http://nemo-gateway.hacohen-flywheel.svc.cluster.local" ].

(** [sys.stdout] takes each line of [ls]: it is [None], or its encoder
    accepts them all. *)
Definition stdout_takes (p : process) (ls : list string) : bool :=
  match stdout_encoder p with
  | None => true
  | Some enc => forallb enc ls
  end.

(** The confirmation lines a call writes, and the one it fails on. *)
Definition printed (p : process) : list string :=
  match stdout_encoder p with
  | None => []
  | Some enc => Py.written enc BANNER
  end.

Definition blocked (p : process) : option string :=
  match stdout_encoder p with
  | None => None
  | Some enc => Py.refused enc BANNER
  end.

(** The process state in which a call started in [p] ends. *)
Definition after (p : process) : process :=
  {| environ := published (environ p);
     stdout := stdout p ++ printed p;
     stdout_encoder := stdout_encoder p |}.

(** The scheme, service host, port and path of each exported endpoint. *)
Definition ENDPOINTS : list (string * Url.parts) :=
  [ ("API_BASE_URL", Url.Parts "http" "df-api-service" (Some "8000") None);
    ("ELASTICSEARCH_URL", Url.Parts "http" "elasticsearch-master" (Some "9200") None);
    ("MONGODB_URL", Url.Parts "mongodb" "flywheel-infra-mongodb" (Some "27017") None);
    ("REDIS_URL", Url.Parts "redis" "flywheel-infra-redis-master" (Some "6379") (Some "0"));
    ("MLFLOW_TRACKING_URI", Url.Parts "http" "df-mlflow-service" (Some "5000") None);
    ("NEMO_BASE_URL", Url.Parts "http" "nemo-gateway" None None);
    ("NIM_BASE_URL", Url.Parts "http" "nemo-gateway" None None);
    ("DATASTORE_BASE_URL", Url.Parts "http" "nemodatastore-sample" (Some "8000") None) ].

(** Every URL constant the module defines. *)
Definition ALL_URLS : list string :=
  EXPORTED.*2 ++ [NIM_EXTERNAL_URL].

(** [NAMESPACE in hostname(url)] *)
Definition host_has_namespace (url : string) : bool :=
  match Url.hostname url with
  | Some h => Str.occurs NAMESPACE h
  | None => false
  end.

(** [n] successive calls of [configure_environment()], as made by an
    importer that calls it again after the import. *)
Fixpoint configure_environment_times (n : nat) : Py.py unit :=
  match n with
  | O => mret tt
  | S n' => configure_environment ;; configure_environment_times n'
  end.

(** The eight names as a set. *)
Definition EXPORTED_NAMES : gset string := list_to_set EXPORTED.*1.

(** ** Facts about the string helpers *)

Module StrFacts.

Lemma app_cons (c : ascii) (a b : string) :
  String c a +:+ b = String c (a +:+ b).
Proof. reflexivity. Qed.

Lemma app_empty (b : string) : "" +:+ b = b.
Proof. reflexivity. Qed.

Ltac norm := rewrite ?app_cons, ?app_empty in *; simpl in *.

Lemma strip_app (a s : string) : Str.strip a (a +:+ s) = Some s.
Proof.
  induction a as [|c a IH]; norm; [reflexivity|].
  now rewrite Ascii.eqb_refl.
Qed.

Lemma strip_sound (a : string) : forall s r,
  Str.strip a s = Some r -> s = a +:+ r.
Proof.
  induction a as [|c a IH]; intros s r H; norm.
  - congruence.
  - destruct s as [|d s]; [discriminate|].
    destruct (Ascii.eqb c d) eqn:E; [|discriminate].
    apply Ascii.eqb_eq in E. subst d. f_equal. now apply IH.
Qed.

Lemma span_sound (p : ascii -> bool) (s : string) : forall a b,
  Str.span p s = (a, b) ->
  s = a +:+ b /\ Str.all p a = true /\ Str.stops p b = true.
Proof.
  induction s as [|c s IH]; intros a b H; simpl in H.
  - inversion H; subst. auto.
  - destruct (p c) eqn:E.
    + destruct (Str.span p s) as [a' b'] eqn:E'.
      inversion H; subst. destruct (IH a' b eq_refl) as (-> & Ha & Hb).
      norm. rewrite E, Ha. auto.
    + inversion H; subst. norm. rewrite E. auto.
Qed.

Lemma span_app (p : ascii -> bool) (a b : string) :
  Str.all p a = true -> Str.stops p b = true ->
  Str.span p (a +:+ b) = (a, b).
Proof.
  intros Ha Hb. induction a as [|c a IH]; norm.
  - destruct b as [|d b]; [reflexivity|]. simpl in *.
    destruct (p d); [discriminate|reflexivity].
  - apply andb_true_iff in Ha as [Hc Ha]. rewrite Hc, (IH Ha). reflexivity.
Qed.

Lemma occurs_intro (x : string) : forall a b, Str.occurs x (a +:+ x +:+ b) = true.
Proof.
  induction a as [|c a IH]; intros b.
  - rewrite app_empty.
    destruct (x +:+ b) eqn:E; simpl; rewrite <- ?E, strip_app; reflexivity.
  - rewrite app_cons. simpl. rewrite IH. now destruct (Str.strip x _).
Qed.

Lemma occurs_elim (x : string) : forall s,
  Str.occurs x s = true -> exists a b, s = a +:+ x +:+ b.
Proof.
  induction s as [|c s IH]; intros H.
  - simpl in H. destruct (Str.strip x "") as [r|] eqn:E; [|discriminate].
    apply strip_sound in E. exists "", r. exact E.
  - simpl in H. destruct (Str.strip x (String c s)) as [r|] eqn:E.
    + apply strip_sound in E. exists "", r. exact E.
    + destruct (IH H) as (a & b & ->). now exists (String c a), b.
Qed.

End StrFacts.

(** ** The recogniser decides the grammar *)

Module UrlFacts.
Import StrFacts.

Lemma parse_port_render (prt pth : option string) :
  Url.port_ok prt = true ->
  Url.parse_port (Url.port_text prt +:+ Url.path_text pth) = Some (prt, Url.path_text pth).
Proof.
  intros Hp. destruct prt as [d|]; simpl.
  - norm.
    apply andb_true_iff in Hp as [Hne Hd].
    rewrite span_app; [now destruct d| exact Hd |now destruct pth].
  - norm. now destruct pth.
Qed.

Lemma parse_path_render (pth : option string) :
  Url.parse_path (Url.path_text pth) = Some pth.
Proof. now destruct pth. Qed.

(** Completeness: a well-formed rendering is read back part by part. *)
Lemma parse_render (ns : string) (u : Url.parts) :
  Url.well_formed u = true -> Url.parse ns (Url.render ns u) = Some u.
Proof.
  destruct u as [sch host prt pth]. unfold Url.well_formed, Url.render. simpl.
  rewrite !andb_true_iff. intros ((((Hs & Hsc) & Hh) & Hl) & Hp).
  unfold Url.parse.
  rewrite (span_app _ sch) by (assumption || reflexivity).
  cbv beta iota. rewrite strip_app. cbn [mbind option_bind].
  rewrite (span_app _ host) by (assumption || reflexivity).
  cbv beta iota. rewrite !strip_app. cbn [mbind option_bind].
  rewrite !strip_app. cbn [mbind option_bind].
  rewrite !strip_app. cbn [mbind option_bind].
  rewrite parse_port_render by assumption. cbn [mbind option_bind].
  rewrite parse_path_render. cbn [mbind option_bind].
  now rewrite Hs, Hh.
Qed.

Lemma parse_port_sound (s : string) (prt : option string) (r : string) :
  Url.parse_port s = Some (prt, r) ->
  s = Url.port_text prt +:+ r /\ Url.port_ok prt = true.
Proof.
  unfold Url.parse_port. intros H.
  destruct s as [|c s]; [inversion H; auto|].
  destruct (Ascii.eqb c ":") eqn:E.
  - apply Ascii.eqb_eq in E. subst c.
    destruct (Str.span Url.is_digit s) as [d r'] eqn:Es.
    destruct (Str.is_empty d) eqn:Ed; [discriminate|].
    inversion H; subst. apply span_sound in Es as (-> & Hd & _).
    simpl. now rewrite Ed, Hd.
  - assert (Some (None, String c s) = Some (prt, r)) as H'.
    { rewrite <- H.
      destruct c as [[] [] [] [] [] [] [] []]; simpl in E |- *; congruence. }
    inversion H'; subst. auto.
Qed.

Lemma parse_path_sound (s : string) (pth : option string) :
  Url.parse_path s = Some pth -> s = Url.path_text pth.
Proof.
  unfold Url.parse_path. intros H.
  destruct s as [|c s]; [now inversion H|].
  destruct (Ascii.eqb c "/") eqn:E.
  - apply Ascii.eqb_eq in E. subst c. now inversion H.
  - exfalso.
    destruct c as [[] [] [] [] [] [] [] []]; simpl in H, E; congruence.
Qed.

(** Soundness: what the recogniser returns is well formed and renders
    to the string that was read. *)
Lemma parse_sound (ns url : string) (u : Url.parts) :
  Url.parse ns url = Some u ->
  Url.well_formed u = true /\ Url.render ns u = url.
Proof.
  unfold Url.parse. intros H.
  destruct (Str.span Url.is_scheme_char url) as [sch r1] eqn:E1.
  destruct (Str.strip "://" r1) as [r2|] eqn:E2;
    cbn [mbind option_bind] in H; [|discriminate].
  destruct (Str.span Url.is_label_char r2) as [host r3] eqn:E3.
  destruct (Str.strip "." r3) as [r4|] eqn:E4;
    cbn [mbind option_bind] in H; [|discriminate].
  destruct (Str.strip ns r4) as [r5|] eqn:E5;
    cbn [mbind option_bind] in H; [|discriminate].
  destruct (Str.strip Url.CLUSTER_SUFFIX r5) as [r6|] eqn:E6;
    cbn [mbind option_bind] in H; [|discriminate].
  destruct (Url.parse_port r6) as [[prt r7]|] eqn:E7;
    cbn [mbind option_bind] in H; [|discriminate].
  destruct (Url.parse_path r7) as [pth|] eqn:E8;
    cbn [mbind option_bind] in H; [|discriminate].
  destruct (Url.starts_alpha sch) eqn:Ha; [|discriminate].
  destruct (Str.is_empty host) eqn:Hh; [discriminate|].
  inversion H; subst u; clear H.
  apply span_sound in E1 as (-> & Hsc & _).
  apply span_sound in E3 as (-> & Hl & _).
  apply strip_sound in E2 as ->. apply strip_sound in E4 as ->.
  apply strip_sound in E5 as ->. apply strip_sound in E6 as ->.
  apply parse_port_sound in E7 as (-> & Hp).
  apply parse_path_sound in E8 as ->.
  split.
  - unfold Url.well_formed. simpl. now rewrite Ha, Hsc, Hh, Hl, Hp.
  - reflexivity.
Qed.

Lemma matches_template_optional_port_iff (ns url : string) :
  Url.matches_template_optional_port ns url <->
  exists u, Url.parse ns url = Some u.
Proof.
  split.
  - intros (u & Hw & <-). exists u. now apply parse_render.
  - intros (u & H). exists u. now apply parse_sound.
Qed.

Lemma matches_template_iff (ns url : string) :
  Url.matches_template ns url <->
  exists u, Url.parse ns url = Some u /\ Url.has_port u = true.
Proof.
  split.
  - intros (u & Hw & Hp & <-). exists u. split; [now apply parse_render|done].
  - intros (u & H & Hp). exists u. apply parse_sound in H as [Hw Hr]. auto.
Qed.

End UrlFacts.

(** ** Running configure_environment *)

Module Run.

Lemma setitem_then {A} (key value : string) (m : Py.py A) (p : process) :
  Py.has_nul key = false -> Py.has_nul value = false ->
  Py.legal_name key = true ->
  (Py.environ_setitem key value ;; m) p =
  m {| environ := <[key := value]> (environ p);
       stdout := stdout p;
       stdout_encoder := stdout_encoder p |}.
Proof.
  intros Hk Hv Hl. unfold mbind, py_bind, Py.bind, Py.environ_setitem.
  unfold Py.legal_name in Hl. apply andb_true_iff in Hl as [He Hq].
  apply negb_true_iff in He, Hq. now rewrite Hk, Hv, He, Hq.
Qed.

Lemma refused_none (enc : string -> bool) (ls : list string) :
  Py.refused enc ls = None <-> forallb enc ls = true.
Proof.
  induction ls as [|l r IH]; simpl; [tauto|].
  destruct (enc l); simpl; [exact IH|]. split; discriminate.
Qed.


Lemma written_all (enc : string -> bool) (ls : list string) :
  forallb enc ls = true -> Py.written enc ls = ls.
Proof.
  induction ls as [|l r IH]; simpl; [reflexivity|].
  destruct (enc l); simpl; [|discriminate]. intros H. now rewrite IH.
Qed.

Lemma written_take (enc : string -> bool) (ls : list string) :
  exists n, Py.written enc ls = take n ls.
Proof.
  induction ls as [|l r [n IH]]; simpl.
  - now exists 0.
  - destruct (enc l); [exists (S n); simpl; now rewrite IH | now exists 0].
Qed.

(** A sequence of prints on an open stream writes the lines up to the
    first one the encoder refuses and raises on that one. *)
Lemma print_seq_open (enc : string -> bool) (ls : list string) :
  forall l e out,
    Py.print_seq l ls (Process e out (Some enc)) =
    match Py.refused enc (l :: ls) with
    | None => Py.Normal tt (Process e (out ++ Py.written enc (l :: ls)) (Some enc))
    | Some s =>
        Py.Raised (Py.UnicodeEncodeError s)
                  (Process e (out ++ Py.written enc (l :: ls)) (Some enc))
    end.
Proof.
  induction ls as [|l' r IH]; intros l e out.
  - cbn [Py.print_seq Py.refused Py.written]. unfold Py.print, Py.raise.
    cbn [stdout_encoder environ stdout].
    destruct (enc l); [reflexivity|]. now rewrite (right_id_L [] (++)).
  - cbn [Py.print_seq]. unfold Py.bind, Py.print at 1, Py.raise.
    cbn [stdout_encoder environ stdout].
    change (Py.refused enc (l :: l' :: r))
      with (if enc l then Py.refused enc (l' :: r) else Some l).
    change (Py.written enc (l :: l' :: r))
      with (if enc l then l :: Py.written enc (l' :: r) else []).
    destruct (enc l).
    + rewrite IH. rewrite <- !(assoc_L (++)). reflexivity.
    + now rewrite (right_id_L [] (++)).
Qed.

Lemma print_seq_none (ls : list string) :
  forall l e out,
    Py.print_seq l ls (Process e out None) = Py.Normal tt (Process e out None).
Proof.
  induction ls as [|l' r IH]; intros l e out; [reflexivity|].
  cbn [Py.print_seq]. unfold Py.bind, Py.print at 1.
  cbn [stdout_encoder]. apply IH.
Qed.

(** The eight assignments always succeed; the call then returns, or raises
    on the first confirmation line the stream refuses. *)
Lemma configure_environment_run (p : process) :
  configure_environment p =
  match blocked p with
  | None => Py.Normal tt (after p)
  | Some s => Py.Raised (Py.UnicodeEncodeError s) (after p)
  end.
Proof.
  unfold configure_environment.
  rewrite !setitem_then by (vm_compute; reflexivity).
  cbn [environ stdout stdout_encoder].
  fold (published (environ p)).
  transitivity
    (Py.print_seq (CHECK_MARK +:+ " OpenShift AI environment configured")
       (tail BANNER)
       (Process (published (environ p)) (stdout p) (stdout_encoder p)));
    [reflexivity|].
  unfold blocked, after, printed. destruct p as [e out [enc|]].
  - cbn [environ stdout stdout_encoder]. apply print_seq_open.
  - cbn [environ stdout stdout_encoder]. rewrite print_seq_none.
    now rewrite (right_id_L [] (++)).
Qed.

Lemma configure_environment_final (p : process) :
  Py.final (configure_environment p) = after p.
Proof. rewrite configure_environment_run. now destruct (blocked p). Qed.

Lemma blocked_none (p : process) :
  blocked p = None <-> stdout_takes p BANNER = true.
Proof.
  unfold blocked, stdout_takes. destruct (stdout_encoder p) as [enc|]; [|tauto].
  apply refused_none.
Qed.

Lemma configure_environment_returns (p : process) :
  stdout_takes p BANNER = true ->
  configure_environment p = Py.Normal tt (after p).
Proof.
  intros H. apply blocked_none in H. now rewrite configure_environment_run, H.
Qed.

Lemma printed_open (p : process) (enc : string -> bool) :
  stdout_encoder p = Some enc -> forallb enc BANNER = true ->
  printed p = BANNER.
Proof. intros He H. unfold printed. rewrite He. now apply written_all. Qed.

Lemma published_exported (e : gmap string string) (k v : string) :
  (k, v) ∈ EXPORTED -> published e !! k = Some v.
Proof.
  unfold EXPORTED, published. rewrite !elem_of_cons, elem_of_nil.
  intros H. repeat destruct H as [H|H]; try done; inversion H; subst k v;
    repeat (rewrite lookup_insert_ne by done); apply lookup_insert_eq.
Qed.

Lemma published_other (e : gmap string string) (k : string) :
  k ∉ EXPORTED.*1 -> published e !! k = e !! k.
Proof.
  unfold EXPORTED, published. cbn [fmap list_fmap fst].
  rewrite !not_elem_of_cons. intros H.
  repeat (rewrite lookup_insert_ne by (intros E; apply eq_sym in E; tauto)).
  reflexivity.
Qed.

Lemma not_exported (k : string) :
  forallb (fun n => negb (String.eqb k n)) EXPORTED.*1 = true ->
  k ∉ EXPORTED.*1.
Proof.
  intros H Hin. rewrite forallb_forall in H.
  apply list_elem_of_In, H, negb_true_iff in Hin.
  now rewrite String.eqb_refl in Hin.
Qed.

Lemma published_idempotent (e : gmap string string) :
  published (published e) = published e.
Proof.
  apply map_eq. intros k.
  destruct (decide (k ∈ EXPORTED.*1)) as [Hin|Hout].
  - apply list_elem_of_fmap in Hin as ([k' v] & -> & Hin).
    now rewrite !(published_exported _ _ _ Hin).
  - now rewrite published_other.
Qed.

Lemma published_dom (e : gmap string string) :
  dom (published e) = dom e ∪ EXPORTED_NAMES.
Proof.
  unfold published, EXPORTED_NAMES, EXPORTED. rewrite !dom_insert_L.
  cbn [fmap list_fmap fst list_to_set]. apply set_eq. intros x.
  rewrite !elem_of_union, !elem_of_singleton, elem_of_empty. tauto.
Qed.

Lemma published_agree (e1 e2 : gmap string string) :
  (forall k, k ∉ EXPORTED.*1 -> e1 !! k = e2 !! k) ->
  published e1 = published e2.
Proof.
  intros H. apply map_eq. intros k.
  destruct (decide (k ∈ EXPORTED.*1)) as [Hin|Hout].
  - apply list_elem_of_fmap in Hin as ([k' v] & -> & Hin).
    now rewrite !(published_exported _ _ _ Hin).
  - rewrite !published_other by assumption. now apply H.
Qed.

Lemma published_insert_other (e : gmap string string) (k v : string) :
  k ∉ EXPORTED.*1 -> published (<[k := v]> e) = <[k := v]> (published e).
Proof.
  intros Hk. apply map_eq. intros i.
  destruct (decide (i = k)) as [->|Hne].
  - rewrite published_other by assumption. now rewrite !lookup_insert_eq.
  - rewrite (lookup_insert_ne (published e)) by congruence.
    destruct (decide (i ∈ EXPORTED.*1)) as [Hin|Hout].
    + apply list_elem_of_fmap in Hin as ([k' w] & -> & Hin).
      now rewrite !(published_exported _ _ _ Hin).
    + rewrite !published_other by assumption.
      now rewrite lookup_insert_ne by congruence.
Qed.

End Run.

Module RunMore.

Lemma times_final_environ (n : nat) : forall p,
  environ (Py.final (configure_environment_times (S n) p))
  = published (environ p).
Proof.
  induction n as [|n IH]; intros p;
    change (configure_environment_times (S ?m))
      with (configure_environment ;; configure_environment_times m);
    unfold mbind, py_bind, Py.bind at 1;
    rewrite Run.configure_environment_run;
    destruct (blocked p); try reflexivity.
  rewrite IH. cbn [after environ]. apply Run.published_idempotent.
Qed.

Lemma times_returns (n : nat) : forall p,
  stdout_takes p BANNER = true ->
  configure_environment_times (S n) p =
  Py.Normal tt {| environ := published (environ p);
                  stdout := stdout p ++ concat (replicate (S n) (printed p));
                  stdout_encoder := stdout_encoder p |}.
Proof.
  induction n as [|n IH]; intros p H;
    change (configure_environment_times (S ?m))
      with (configure_environment ;; configure_environment_times m);
    unfold mbind, py_bind, Py.bind at 1;
    rewrite (Run.configure_environment_returns p H).
  - cbn [configure_environment_times replicate concat]. unfold after.
    now rewrite (right_id_L [] (++)).
  - rewrite IH by exact H. unfold after, printed. cbn [environ stdout stdout_encoder].
    rewrite Run.published_idempotent.
    change (replicate (S (S n)) ?x) with (x :: replicate (S n) x).
    cbn [concat]. now rewrite <- (assoc_L (++)).
Qed.

End RunMore.

(** ** Evaluating the model on concrete inputs *)

Example api_base_url_value :
  API_BASE_URL = "http://df-api-service.hacohen-flywheel.svc.cluster.local:8000".
Proof. reflexivity. Qed.

Example redis_url_value :
  REDIS_URL
  = "redis://flywheel-infra-redis-master.hacohen-flywheel.svc.cluster.local:6379/0".
Proof. reflexivity. Qed.

Example setitem_rejects_equals_sign :
  Py.environ_setitem "A=B" "x" (Process ∅ [] None)
  = Py.Raised (Py.ValueError "illegal environment variable name")
              (Process ∅ [] None).
Proof. reflexivity. Qed.

Example setitem_rejects_empty_name :
  Py.environ_setitem "" "x" (Process ∅ [] None)
  = Py.Raised (Py.OSError 22 "Invalid argument") (Process ∅ [] None).
Proof. reflexivity. Qed.

Example setitem_overwrites :
  exists p,
    Py.environ_setitem "REDIS_URL" "new"
      (Process {[ "REDIS_URL" := "old" ]} [] None)
    = Py.Normal tt p /\ environ p !! "REDIS_URL" = Some "new".
Proof. eexists. split; [reflexivity|]. apply lookup_insert_eq. Qed.

Example print_on_utf8_stdout :
  Py.print CHECK_MARK (Process ∅ [] (Some Py.utf8))
  = Py.Normal tt (Process ∅ [CHECK_MARK] (Some Py.utf8)).
Proof. reflexivity. Qed.

Example print_on_ascii_stdout :
  Py.print CHECK_MARK (Process ∅ [] (Some Py.ascii_strict))
  = Py.Raised (Py.UnicodeEncodeError CHECK_MARK)
              (Process ∅ [] (Some Py.ascii_strict)).
Proof. reflexivity. Qed.

Example print_without_stdout :
  Py.print CHECK_MARK (Process ∅ [] None) = Py.Normal tt (Process ∅ [] None).
Proof. reflexivity. Qed.

Example banner_on_utf8_stdout :
  printed (Process ∅ [] (Some Py.utf8)) = BANNER.
Proof. reflexivity. Qed.

Example banner_on_ascii_stdout :
  printed (Process ∅ [] (Some Py.ascii_strict)) = [] /\
  blocked (Process ∅ [] (Some Py.ascii_strict))
  = Some (CHECK_MARK +:+ " OpenShift AI environment configured").
Proof. split; reflexivity. Qed.

Example external_url_is_not_a_service_url :
  Url.parse NAMESPACE NIM_EXTERNAL_URL = None.
Proof. vm_compute. reflexivity. Qed.

Example redis_url_parts :
  Url.parse NAMESPACE REDIS_URL
  = Some (Url.Parts "redis" "flywheel-infra-redis-master" (Some "6379") (Some "0")).
Proof. vm_compute. reflexivity. Qed.

Example external_url_hostname :
  Url.hostname NIM_EXTERNAL_URL
  = Some "nemo-gateway-hacohen-flywheel.apps.ai-dev05.kni.syseng.devcluster.openshift.com".
Proof. vm_compute. reflexivity. Qed.

Lemma host_has_namespace_spec (url : string) :
  host_has_namespace url = true ->
  exists h a b, Url.hostname url = Some h /\ h = a +:+ NAMESPACE +:+ b.
Proof.
  unfold host_has_namespace. destruct (Url.hostname url) as [h|]; [|discriminate].
  intros H. apply StrFacts.occurs_elim in H as (a & b & ->). eauto.
Qed.

Lemma endpoints_render :
  map (fun '(k, u) => (k, Url.render NAMESPACE u)) ENDPOINTS = EXPORTED.
Proof. reflexivity. Qed.

Lemma template_of_parse (url : string) (u : Url.parts) :
  Url.parse NAMESPACE url = Some u -> Url.has_port u = true ->
  Url.matches_template NAMESPACE url.
Proof. intros H Hp. apply UrlFacts.matches_template_iff. eauto. Qed.

Lemma template_optional_port_of_parse (url : string) (u : Url.parts) :
  Url.parse NAMESPACE url = Some u ->
  Url.matches_template_optional_port NAMESPACE url.
Proof. intros H. apply UrlFacts.matches_template_optional_port_iff. eauto. Qed.

Lemma no_template_of_parse (url : string) (u : Url.parts) :
  Url.parse NAMESPACE url = Some u -> Url.has_port u = false ->
  ~ Url.matches_template NAMESPACE url.
Proof.
  intros H Hp Hm. apply UrlFacts.matches_template_iff in Hm as (u' & H' & Hp').
  congruence.
Qed.

(** ** The specification, claim by claim

    A call ends in the state [Py.final (configure_environment p)], whether
    it returns or raises; what the claims say of the environment after the
    call is stated of that state. *)

(** C1. From every initial process state, after [configure_environment]
    each of the eight variables API_BASE_URL, ELASTICSEARCH_URL,
    MONGODB_URL, REDIS_URL, MLFLOW_TRACKING_URI, NEMO_BASE_URL,
    NIM_BASE_URL and DATASTORE_BASE_URL is set in [os.environ] to the
    module constant of the same name. *)
Theorem configure_environment_exports_all (p : process) :
  exists q, Py.final (configure_environment p) = q /\
    environ q !! "API_BASE_URL" = Some API_BASE_URL /\
    environ q !! "ELASTICSEARCH_URL" = Some ELASTICSEARCH_URL /\
    environ q !! "MONGODB_URL" = Some MONGODB_URL /\
    environ q !! "REDIS_URL" = Some REDIS_URL /\
    environ q !! "MLFLOW_TRACKING_URI" = Some MLFLOW_TRACKING_URI /\
    environ q !! "NEMO_BASE_URL" = Some NEMO_BASE_URL /\
    environ q !! "NIM_BASE_URL" = Some NIM_BASE_URL /\
    environ q !! "DATASTORE_BASE_URL" = Some DATASTORE_BASE_URL.
Proof.
  eexists. split; [apply Run.configure_environment_final|]. cbn [after environ].
  repeat split; apply Run.published_exported; unfold EXPORTED; set_solver.
Qed.

(** C2, as stated, fails: NEMO_BASE_URL is one of the eight exported
    constants and it does not have the documented shape
    [<scheme>://<service-host>.<namespace>.svc.cluster.local:<port>[/<path>]],
    because it carries no port. *)
Lemma nemo_base_url_breaks_template :
  ("NEMO_BASE_URL", NEMO_BASE_URL) ∈ EXPORTED /\
  ~ Url.matches_template NAMESPACE NEMO_BASE_URL.
Proof.
  split; [unfold EXPORTED; set_solver|].
  eapply no_template_of_parse; [vm_compute; reflexivity|reflexivity].
Qed.

(** C2, amended. With the namespace "hacohen-flywheel", each of the eight
    exported constants has the shape
    [<scheme>://<service-host>.<namespace>.svc.cluster.local[:<port>][/<path>]]:
    API_BASE_URL, ELASTICSEARCH_URL, MONGODB_URL, REDIS_URL,
    MLFLOW_TRACKING_URI and DATASTORE_BASE_URL carry a port and so match the
    documented template exactly; NEMO_BASE_URL and NIM_BASE_URL have the
    same shape without the port, and do not match the template with it. *)
Theorem exported_urls_match_template_port_optional :
  Url.matches_template NAMESPACE API_BASE_URL /\
  Url.matches_template NAMESPACE ELASTICSEARCH_URL /\
  Url.matches_template NAMESPACE MONGODB_URL /\
  Url.matches_template NAMESPACE REDIS_URL /\
  Url.matches_template NAMESPACE MLFLOW_TRACKING_URI /\
  Url.matches_template NAMESPACE DATASTORE_BASE_URL /\
  Url.matches_template_optional_port NAMESPACE NEMO_BASE_URL /\
  Url.matches_template_optional_port NAMESPACE NIM_BASE_URL /\
  ~ Url.matches_template NAMESPACE NEMO_BASE_URL /\
  ~ Url.matches_template NAMESPACE NIM_BASE_URL.
Proof.
  repeat split;
    first
      [ eapply template_of_parse; [vm_compute; reflexivity|reflexivity]
      | eapply template_optional_port_of_parse; vm_compute; reflexivity
      | eapply no_template_of_parse; [vm_compute; reflexivity|reflexivity] ].
Qed.

(** C3. [configure_environment] is idempotent on the environment: from
    every initial process state, calling it again in the state the first
    call ended in, or calling it twice in sequence, leaves [os.environ]
    exactly as one call leaves it. *)
Theorem configure_environment_idempotent (p : process) :
  exists q1 q2 q2',
    Py.final (configure_environment p) = q1 /\
    Py.final (configure_environment q1) = q2 /\
    Py.final ((configure_environment ;; configure_environment) p) = q2' /\
    environ q2 = environ q1 /\
    environ q2' = environ q1.
Proof.
  do 3 eexists. split; [apply Run.configure_environment_final|].
  split; [apply Run.configure_environment_final|].
  split; [reflexivity|]. split.
  - cbn [after environ]. apply Run.published_idempotent.
  - unfold mbind, py_bind, Py.bind.
    rewrite (Run.configure_environment_run p).
    destruct (blocked p); [reflexivity|].
    rewrite Run.configure_environment_final. cbn [after environ].
    apply Run.published_idempotent.
Qed.

(** C4. [configure_environment] writes only the eight listed names: for
    every initial process state and every key that is not one of the eight,
    the key's entry in [os.environ] (its prior value, or its absence) is the
    same after the call. *)
Theorem configure_environment_frame (p : process) (k : string) :
  k ∉ EXPORTED.*1 ->
  exists q, Py.final (configure_environment p) = q /\
    environ q !! k = environ p !! k.
Proof.
  intros Hk. eexists. split; [apply Run.configure_environment_final|].
  cbn [after environ]. now apply Run.published_other.
Qed.

Lemma configure_environment_frame_witness :
  ("PATH" ∉ EXPORTED.*1) /\
  exists q,
    Py.final (configure_environment
                (Process {[ "PATH" := "/usr/bin" ]} [] (Some Py.utf8))) = q /\
    environ q !! "PATH" = Some "/usr/bin".
Proof.
  assert ("PATH" ∉ EXPORTED.*1) as H by (apply Run.not_exported; reflexivity).
  split; [exact H|].
  destruct (configure_environment_frame
              (Process {[ "PATH" := "/usr/bin" ]} [] (Some Py.utf8)) "PATH" H)
    as (q & Hrun & Hk).
  exists q. split; [exact Hrun|].
  rewrite Hk. cbn [environ]. apply lookup_singleton_eq.
Defined.

(** C5. NIM_EXTERNAL_URL is a constant of the module that is not exported:
    no assignment of [configure_environment] names it, so from every
    process state in which the variable NIM_EXTERNAL_URL is unset the call
    ends with it still unset. *)
Theorem nim_external_url_not_exported (p : process) :
  environ p !! "NIM_EXTERNAL_URL" = None ->
  ("NIM_EXTERNAL_URL" ∉ EXPORTED.*1) /\
  exists q, Py.final (configure_environment p) = q /\
    environ q !! "NIM_EXTERNAL_URL" = None.
Proof.
  intros Hn.
  assert ("NIM_EXTERNAL_URL" ∉ EXPORTED.*1) as H
    by (apply Run.not_exported; reflexivity).
  split; [exact H|].
  eexists. split; [apply Run.configure_environment_final|].
  cbn [after environ]. now rewrite Run.published_other.
Qed.

Lemma nim_external_url_not_exported_witness :
  environ (Process ∅ [] (Some Py.utf8)) !! "NIM_EXTERNAL_URL" = None /\
  ("NIM_EXTERNAL_URL" ∉ EXPORTED.*1) /\
  exists q,
    Py.final (configure_environment (Process ∅ [] (Some Py.utf8))) = q /\
    environ q !! "NIM_EXTERNAL_URL" = None.
Proof.
  split; [reflexivity|].
  apply (nim_external_url_not_exported (Process ∅ [] (Some Py.utf8))).
  reflexivity.
Defined.

(** C6. The values written do not depend on the state the call starts
    from: for any two initial process states, both calls write, under each
    of the eight names, the same string, which is the rendering of the
    name's fixed scheme, host, port and path with the namespace. *)
Theorem exported_values_independent_of_state (p1 p2 : process) :
  exists q1 q2,
    Py.final (configure_environment p1) = q1 /\
    Py.final (configure_environment p2) = q2 /\
    Forall (fun '(k, u) =>
              environ q1 !! k = Some (Url.render NAMESPACE u) /\
              environ q2 !! k = Some (Url.render NAMESPACE u))
           ENDPOINTS.
Proof.
  do 2 eexists. split; [apply Run.configure_environment_final|].
  split; [apply Run.configure_environment_final|]. cbn [after environ].
  unfold ENDPOINTS. repeat apply Forall_cons_2; [..|apply Forall_nil_2];
    (split; apply Run.published_exported; unfold EXPORTED; set_solver).
Qed.



(** C8. Importing the module configures the environment: the module body
    calls [configure_environment] once, so from every process state the
    import ends with the eight variables set to their constants, with no
    call by the importer, and with at most one copy of the confirmation
    lines written. *)
Theorem import_configures_environment_once (p : process) :
  exists q n, Py.final (import_config p) = q /\
    Forall (fun '(k, v) => environ q !! k = Some v) EXPORTED /\
    stdout q = (stdout p ++ take n BANNER)%list.
Proof.
  assert (exists n, printed p = take n BANNER) as [n Hn].
  { unfold printed. destruct (stdout_encoder p) as [enc|].
    - apply Run.written_take.
    - now exists 0. }
  exists (after p), n. split; [apply Run.configure_environment_final|].
  cbn [after environ stdout]. split; [|now rewrite Hn].
  unfold EXPORTED at 1. repeat apply Forall_cons_2; [..|apply Forall_nil_2];
    (apply Run.published_exported; unfold EXPORTED; set_solver).
Qed.

(** C9. The namespace "hacohen-flywheel" occurs in the host name of every
    URL constant of the module: of the eight exported ones and of
    NIM_EXTERNAL_URL. *)
Theorem namespace_in_every_hostname :
  Forall (fun url => exists h a b,
            Url.hostname url = Some h /\ h = a +:+ NAMESPACE +:+ b)
         ALL_URLS.
Proof.
  unfold ALL_URLS, EXPORTED. cbn [fmap list_fmap snd app].
  repeat apply Forall_cons_2; [..|apply Forall_nil_2];
    apply host_has_namespace_spec; vm_compute; reflexivity.
Qed.

(** C10. NEMO_BASE_URL and NIM_BASE_URL are the same string,
    "http://nemo-gateway.hacohen-flywheel.svc.cluster.local", which has no
    port; after [configure_environment] the two environment variables of
    these names hold that one value. *)
Theorem nemo_and_nim_share_endpoint (p : process) :
  NEMO_BASE_URL = NIM_BASE_URL /\
  NEMO_BASE_URL = "http://nemo-gateway.hacohen-flywheel.svc.cluster.local" /\
  Url.parse NAMESPACE NEMO_BASE_URL
    = Some (Url.Parts "http" "nemo-gateway" None None) /\
  exists q, Py.final (configure_environment p) = q /\
    environ q !! "NEMO_BASE_URL"
      = Some "http://nemo-gateway.hacohen-flywheel.svc.cluster.local" /\
    environ q !! "NIM_BASE_URL" = environ q !! "NEMO_BASE_URL".
Proof.
  split; [reflexivity|]. split; [reflexivity|]. split; [vm_compute; reflexivity|].
  eexists. split; [apply Run.configure_environment_final|]. cbn [after environ].
  rewrite !(Run.published_exported _ _ NEMO_BASE_URL)
    by (unfold EXPORTED; set_solver).
  split; reflexivity.
Qed.

(** ** Further properties of configure_environment *)

(** X1. The call defines the eight names and no other: from every process
    state it ends with the set of variables defined in [os.environ] equal
    to the set defined before together with the eight exported names. *)
Theorem configure_environment_defined_names (p : process) :
  exists q, Py.final (configure_environment p) = q /\
    dom (environ q) = dom (environ p) ∪ EXPORTED_NAMES.
Proof.
  eexists. split; [apply Run.configure_environment_final|].
  cbn [after environ]. apply Run.published_dom.
Qed.

(** X2. On a standard output whose encoder accepts the six confirmation
    lines, the output agrees with the environment: the call returns,
    keeps what was printed before and appends six lines, and the URLs
    shown on the API, Elasticsearch, MLflow and NeMo Gateway lines are the
    values that [os.environ] holds afterwards under API_BASE_URL,
    ELASTICSEARCH_URL, MLFLOW_TRACKING_URI and NEMO_BASE_URL. *)
Theorem confirmation_reports_exported_values
    (p : process) (enc : string -> bool) :
  stdout_encoder p = Some enc -> forallb enc BANNER = true ->
  exists q api es mlflow nemo,
    configure_environment p = Py.Normal tt q /\
    environ q !! "API_BASE_URL" = Some api /\
    environ q !! "ELASTICSEARCH_URL" = Some es /\
    environ q !! "MLFLOW_TRACKING_URI" = Some mlflow /\
    environ q !! "NEMO_BASE_URL" = Some nemo /\
    stdout q =
      (stdout p ++
       [ CHECK_MARK +:+ " OpenShift AI environment configured";
         "  Namespace: " +:+ NAMESPACE;
         "  API URL: " +:+ api;
         "  Elasticsearch: " +:+ es;
         "  MLflow: " +:+ mlflow;
         "  NeMo Gateway: " +:+ nemo ])%list.
Proof.
  intros He Hall.
  exists (after p), API_BASE_URL, ELASTICSEARCH_URL, MLFLOW_TRACKING_URI,
    NEMO_BASE_URL.
  split.
  { apply Run.configure_environment_returns. unfold stdout_takes.
    now rewrite He. }
  cbn [after environ stdout]. rewrite (Run.printed_open p enc He Hall).
  repeat split;
    try (apply Run.published_exported; unfold EXPORTED; set_solver).
Qed.

Lemma confirmation_reports_exported_values_witness :
  exists q api es mlflow nemo,
    configure_environment (Process ∅ [] (Some Py.utf8)) = Py.Normal tt q /\
    environ q !! "API_BASE_URL" = Some api /\
    environ q !! "ELASTICSEARCH_URL" = Some es /\
    environ q !! "MLFLOW_TRACKING_URI" = Some mlflow /\
    environ q !! "NEMO_BASE_URL" = Some nemo /\
    stdout q =
      (stdout (Process ∅ [] (Some Py.utf8)) ++
       [ CHECK_MARK +:+ " OpenShift AI environment configured";
         "  Namespace: " +:+ NAMESPACE;
         "  API URL: " +:+ api;
         "  Elasticsearch: " +:+ es;
         "  MLflow: " +:+ mlflow;
         "  NeMo Gateway: " +:+ nemo ])%list.
Proof.
  apply (confirmation_reports_exported_values
           (Process ∅ [] (Some Py.utf8)) Py.utf8); reflexivity.
Defined.

(** X3. On a standard output whose encoder accepts the six confirmation
    lines, any number of calls, at least one, all return and leave
    [os.environ] as a single call leaves it, while the confirmation output
    is written once per call. *)
Theorem configure_environment_times_environ
    (n : nat) (p : process) (enc : string -> bool) :
  0 < n ->
  stdout_encoder p = Some enc -> forallb enc BANNER = true ->
  exists q1 qn,
    configure_environment p = Py.Normal tt q1 /\
    configure_environment_times n p = Py.Normal tt qn /\
    environ qn = environ q1 /\
    stdout qn = (stdout p ++ concat (replicate n BANNER))%list.
Proof.
  intros Hn He Hall. destruct n as [|n]; [lia|].
  assert (stdout_takes p BANNER = true) as Ht
    by (unfold stdout_takes; now rewrite He).
  do 2 eexists. split; [now apply Run.configure_environment_returns|].
  split; [now apply RunMore.times_returns|].
  cbn [after environ stdout]. split; [reflexivity|].
  now rewrite (Run.printed_open p enc He Hall).
Qed.

Lemma configure_environment_times_environ_witness :
  0 < 3 /\
  exists q1 qn,
    configure_environment (Process ∅ [] (Some Py.utf8)) = Py.Normal tt q1 /\
    configure_environment_times 3 (Process ∅ [] (Some Py.utf8))
      = Py.Normal tt qn /\
    environ qn = environ q1 /\
    stdout qn =
      (stdout (Process ∅ [] (Some Py.utf8)) ++ concat (replicate 3 BANNER))%list.
Proof.
  split; [lia|].
  apply (configure_environment_times_environ
           3 (Process ∅ [] (Some Py.utf8)) Py.utf8); [lia|reflexivity..].
Defined.

(** X4. When [sys.stdout] is [None] or its encoder accepts the six
    confirmation lines, the call commutes with an assignment to any other
    variable: for a name outside the eight that [os.environ] accepts, with
    a value it accepts, assigning it before the call and assigning it after
    the call both complete and end in the same process state. *)
Theorem configure_environment_commutes_with_other_assignment
    (p : process) (k v : string) :
  k ∉ EXPORTED.*1 ->
  Py.has_nul k = false -> Py.has_nul v = false -> Py.legal_name k = true ->
  stdout_takes p BANNER = true ->
  exists q,
    (Py.environ_setitem k v ;; configure_environment) p = Py.Normal tt q /\
    (configure_environment ;; Py.environ_setitem k v) p = Py.Normal tt q.
Proof.
  intros Hk Hnk Hnv Hl Ht. exists
    {| environ := <[k := v]> (published (environ p));
       stdout := stdout p ++ printed p;
       stdout_encoder := stdout_encoder p |}.
  split.
  - rewrite Run.setitem_then by assumption.
    rewrite Run.configure_environment_returns by exact Ht.
    unfold after, printed. cbn [environ stdout stdout_encoder].
    now rewrite Run.published_insert_other by assumption.
  - unfold mbind, py_bind, Py.bind.
    rewrite Run.configure_environment_returns by exact Ht.
    unfold Py.environ_setitem. unfold Py.legal_name in Hl.
    apply andb_true_iff in Hl as [Hne Hq]. apply negb_true_iff in Hne, Hq.
    now rewrite Hnk, Hnv, Hne, Hq.
Qed.

Lemma configure_environment_commutes_with_other_assignment_witness :
  ("PATH" ∉ EXPORTED.*1) /\
  exists q,
    (Py.environ_setitem "PATH" "/usr/bin" ;; configure_environment)
      (Process ∅ [] (Some Py.utf8)) = Py.Normal tt q /\
    (configure_environment ;; Py.environ_setitem "PATH" "/usr/bin")
      (Process ∅ [] (Some Py.utf8)) = Py.Normal tt q.
Proof.
  assert ("PATH" ∉ EXPORTED.*1) as H by (apply Run.not_exported; reflexivity).
  split; [exact H|].
  apply (configure_environment_commutes_with_other_assignment
           (Process ∅ [] (Some Py.utf8)) "PATH" "/usr/bin" H); reflexivity.
Defined.

(** X5. Earlier values of the eight variables leave no trace: two process
    states whose environments agree on every name outside the eight have
    the same [os.environ] after the call, whatever the eight names held
    before. *)
Theorem configure_environment_forgets_prior_exports (p1 p2 : process) :
  (forall k, k ∉ EXPORTED.*1 -> environ p1 !! k = environ p2 !! k) ->
  exists q1 q2,
    Py.final (configure_environment p1) = q1 /\
    Py.final (configure_environment p2) = q2 /\
    environ q1 = environ q2.
Proof.
  intros H. do 2 eexists.
  split; [apply Run.configure_environment_final|].
  split; [apply Run.configure_environment_final|].
  cbn [after environ]. now apply Run.published_agree.
Qed.

Lemma configure_environment_forgets_prior_exports_witness :
  exists q1 q2,
    Py.final
      (configure_environment
         (Process {[ "API_BASE_URL" := "http://localhost:8000" ]} []
                  (Some Py.utf8))) = q1 /\
    Py.final (configure_environment (Process ∅ [] (Some Py.utf8))) = q2 /\
    environ q1 = environ q2.
Proof.
  apply (configure_environment_forgets_prior_exports
           (Process {[ "API_BASE_URL" := "http://localhost:8000" ]} []
                    (Some Py.utf8))
           (Process ∅ [] (Some Py.utf8))).
  intros k Hk. cbn [environ].
  apply lookup_insert_ne. intros <-. apply Hk.
  unfold EXPORTED. cbn [fmap list_fmap fst]. apply list_elem_of_here.
Defined.
